(** * KNX datapoint types: a shallow embedding of [knx/dpt/types.go]

    The Go file defines ten datapoint types (DPT 1.001, 1.002, 1.003, 1.009,
    1.010, 5.001, 5.003, 5.004, 9.001 and 9.004), each with [Pack], [Unpack],
    [Unit] and [String].  A method with a pointer receiver is embedded as a
    function that takes the receiver's old contents and returns the error
    together with the receiver's new contents. *)

From Stdlib Require Import ZArith List String Bool Lia.
From Stdlib.Strings Require Import Byte.
Import ListNotations.
Local Open Scope Z_scope.

(** ** IEEE-754 binary32, as Go's [float32]

    Every finite binary32 number is an integer multiple of [2^-149], the
    smallest subnormal.  A finite float is therefore kept as that integer;
    arithmetic computes the exact rational result and rounds it to the
    nearest representable number, ties to even, once per operation, as Go
    does for [float32] operands.  The two zeros are identified: the codec
    only compares floats, multiplies and divides them by non-zero constants
    and converts them to [uint8], and none of these tells the zeros apart. *)
Module F32.

Inductive float32 : Type :=
| NaN
| Inf (neg : bool)
| Fin (k : Z).            (* the number [k * 2^-149] *)

(** [1.0] in units of [2^-149]. *)
Definition one : Z := 2 ^ 149.

(** Nearest integer to [a / b], ties to even ([0 <= a], [0 < b]). *)
Definition rhe (a b : Z) : Z :=
  let q := a / b in
  let r := a mod b in
  if 2 * r <? b then q
  else if b <? 2 * r then q + 1
  else if Z.even q then q else q + 1.

(** Magnitude [a / den] rounded to 24 significant bits (or to a whole
    number of units in the subnormal range). *)
Definition round_mag (a den : Z) : Z :=
  let fl := a / den in
  let j := if fl <? 2 ^ 24 then 0 else Z.log2 fl - 23 in
  rhe a (den * 2 ^ j) * 2 ^ j.

(** The rational [n / den] (in units, [0 < den]) rounded to binary32. *)
Definition round (n den : Z) : float32 :=
  let r := round_mag (Z.abs n) den in
  if 2 ^ 277 <=? r then Inf (n <? 0) else Fin (Z.sgn n * r).

(** Membership in the binary32 grid. *)
Definition is_binary32 (f : float32) : bool :=
  match f with
  | Fin k => match round k 1 with Fin k' => k =? k' | _ => false end
  | _ => true
  end.

(** Conversion of an integer, and of a decimal constant [n / den]. *)
Definition of_Z (n : Z) : float32 := round (n * one) 1.
Definition of_ratio (n den : Z) : float32 := round (n * one) den.
Definition of_byte (b : byte) : float32 := of_Z (Z.of_N (Byte.to_N b)).

Definition mul (x y : float32) : float32 :=
  match x, y with
  | NaN, _ | _, NaN => NaN
  | Inf s, Inf t => Inf (xorb s t)
  | Inf s, Fin k | Fin k, Inf s =>
      if k =? 0 then NaN else Inf (xorb s (k <? 0))
  | Fin a, Fin b => round (a * b) one
  end.

Definition div (x y : float32) : float32 :=
  match x, y with
  | NaN, _ | _, NaN => NaN
  | Inf _, Inf _ => NaN
  | Inf s, Fin k => Inf (xorb s (k <? 0))
  | Fin _, Inf _ => Fin 0
  | Fin a, Fin b =>
      if b =? 0 then (if a =? 0 then NaN else Inf (a <? 0))
      else round (Z.sgn b * a * one) (Z.abs b)
  end.

(** Go's [<] and [<=]; a comparison with NaN is false. *)
Definition ltb (x y : float32) : bool :=
  match x, y with
  | NaN, _ | _, NaN => false
  | Inf s, Inf t => s && negb t
  | Inf s, Fin _ => s
  | Fin _, Inf t => negb t
  | Fin a, Fin b => a <? b
  end.

Definition leb (x y : float32) : bool :=
  match x, y with
  | NaN, _ | _, NaN => false
  | Inf s, Inf t => s || negb t
  | Inf s, Fin _ => s
  | Fin _, Inf t => negb t
  | Fin a, Fin b => a <=? b
  end.

(** Go's conversion [uint8(f)]: the fraction is discarded (truncation
    towards zero).  When the truncated value does not fit in a [uint8],
    or [f] is not a number, the language leaves the result
    implementation-dependent: the model answers [None] there. *)
Definition to_uint8 (f : float32) : option byte :=
  match f with
  | Fin k =>
      let t := Z.quot k one in
      if (0 <=? t) && (t <=? 255) then Byte.of_N (Z.to_N t) else None
  | _ => None
  end.

(** [|x - y| <= num / den], for finite [x] and [y] and [0 < den]. *)
Definition within (x y : float32) (num den : Z) : Prop :=
  match x, y with
  | Fin a, Fin b => den * Z.abs (a - b) <= num * one
  | _, _ => False
  end.

End F32.

Import F32.

(** ** Errors

    Go's [error] results are [option error], [None] being [nil].  The range
    error built with [fmt.Errorf] keeps what its message is made of: the
    offending value and the two bounds of the range the message names. *)
Inductive error : Type :=
| LengthError
| RangeError (value : float32) (lo hi : Z).

(** ** Primitive encoders

    [types.go] calls [packB1], [unpackB1], [packU8], [unpackU8] and
    [unpackF16]; their file is not part of the sources at hand.  An
    unpacking primitive receives a pointer to its target: it is given the
    target's old contents and returns the new ones next to the error. *)

(** Modelled from the spec: [packB1], absent from the sources, "produce a
    single byte whose least significant bit equals the boolean; sets byte to
    1 or 0". *)
Definition packB1 (value : bool) : list byte :=
  [if value then x01 else x00].

(** Modelled from the spec: [unpackB1], absent from the sources, "fails with
    LengthError if input length <> 1; otherwise interprets the
    least-significant bit of the byte as the boolean"; an erroring operation
    "leaves the target value unmodified". *)
Definition unpackB1 (data : list byte) (target : bool) : option error * bool :=
  match data with
  | [b] => (None, N.testbit (Byte.to_N b) 0)
  | _ => (Some LengthError, target)
  end.

(** Modelled from the spec: [packU8], absent from the sources, "direct 1:1
    copy of the 8-bit value". *)
Definition packU8 (value : byte) : list byte := [value].

(** Modelled from the spec: [unpackU8], absent from the sources, "fails with
    LengthError if input length <> 1; otherwise returns the byte value
    unchanged". *)
Definition unpackU8 (data : list byte) (target : byte) : option error * byte :=
  match data with
  | [b] => (None, b)
  | _ => (Some LengthError, target)
  end.

(** Modelled from the spec: the fields of the 2-byte float.  Bit 15 is the
    sign, bits 14-11 the exponent in [0, 15], bits 10-0 the mantissa; of the
    conventions the spec leaves open, the signed mantissa is read in two's
    complement, which is the one with range [-2048, 2047]. *)
Definition f16_word (hi lo : byte) : Z :=
  Z.lor (Z.shiftl (Z.of_N (Byte.to_N hi)) 8) (Z.of_N (Byte.to_N lo)).

Definition f16_exponent (w : Z) : Z := Z.land (Z.shiftr w 11) 15.

Definition f16_mantissa (w : Z) : Z :=
  Z.land w 2047 - (if Z.testbit w 15 then 2048 else 0).

(** Modelled from the spec: [unpackF16], absent from the sources, "fails
    with LengthError if input length <> 2"; otherwise "real =
    mantissa_signed * 0.01 * 2^exponent", computed in [float32], the type of
    the target. *)
Definition unpackF16 (data : list byte) (target : float32)
  : option error * float32 :=
  match data with
  | [hi; lo] =>
      let w := f16_word hi lo in
      (None, mul (mul (of_Z (f16_mantissa w)) (of_ratio 1 100))
                 (of_Z (2 ^ f16_exponent w)))
  | _ => (Some LengthError, target)
  end.

(** ** DPT 1.xxx: the boolean family *)

Definition DPT_1001 : Type := bool.
Definition DPT_1001_Pack (d : DPT_1001) : list byte := packB1 d.
Definition DPT_1001_Unpack (data : list byte) (d : DPT_1001)
  : option error * DPT_1001 := unpackB1 data d.
Definition DPT_1001_Unit (d : DPT_1001) : string := EmptyString.
Definition DPT_1001_String (d : DPT_1001) : string :=
  if d then "On"%string else "Off"%string.

Definition DPT_1002 : Type := bool.
Definition DPT_1002_Pack (d : DPT_1002) : list byte := packB1 d.
Definition DPT_1002_Unpack (data : list byte) (d : DPT_1002)
  : option error * DPT_1002 := unpackB1 data d.
Definition DPT_1002_Unit (d : DPT_1002) : string := EmptyString.
Definition DPT_1002_String (d : DPT_1002) : string :=
  if d then "True"%string else "False"%string.

Definition DPT_1003 : Type := bool.
Definition DPT_1003_Pack (d : DPT_1003) : list byte := packB1 d.
Definition DPT_1003_Unpack (data : list byte) (d : DPT_1003)
  : option error * DPT_1003 := unpackB1 data d.
Definition DPT_1003_Unit (d : DPT_1003) : string := EmptyString.
Definition DPT_1003_String (d : DPT_1003) : string :=
  if d then "Enable"%string else "Disable"%string.

Definition DPT_1009 : Type := bool.
Definition DPT_1009_Pack (d : DPT_1009) : list byte := packB1 d.
Definition DPT_1009_Unpack (data : list byte) (d : DPT_1009)
  : option error * DPT_1009 := unpackB1 data d.
Definition DPT_1009_Unit (d : DPT_1009) : string := EmptyString.
Definition DPT_1009_String (d : DPT_1009) : string :=
  if d then "Close"%string else "Open"%string.

Definition DPT_1010 : Type := bool.
Definition DPT_1010_Pack (d : DPT_1010) : list byte := packB1 d.
Definition DPT_1010_Unpack (data : list byte) (d : DPT_1010)
  : option error * DPT_1010 := unpackB1 data d.
Definition DPT_1010_Unit (d : DPT_1010) : string := EmptyString.
Definition DPT_1010_String (d : DPT_1010) : string :=
  if d then "Start"%string else "Stop"%string.

(** ** DPT 5.xxx: the scaled-byte family

    These types are [float32].  [Pack] converts a float to [uint8]; where Go
    leaves that conversion implementation-dependent ([to_uint8]) the
    embedded [Pack] has no result. *)

(** The untyped constants of the source, converted to [float32]. *)
Definition c0 : float32 := of_Z 0.
Definition c100 : float32 := of_Z 100.
Definition c255 : float32 := of_Z 255.
Definition c360 : float32 := of_Z 360.
Definition c2_55 : float32 := of_ratio 255 100.
Definition c_273 : float32 := of_Z (-273).
Definition c670760 : float32 := of_Z 670760.

Definition DPT_5001 : Type := float32.

Definition DPT_5001_Pack (d : DPT_5001) : option (list byte) :=
  if leb d c0 then Some (packU8 x00)
  else if leb c100 d then Some (packU8 xff)
  else option_map packU8 (to_uint8 (mul d c2_55)).

Definition DPT_5001_Unpack (data : list byte) (d : DPT_5001)
  : option error * DPT_5001 :=
  let '(err, value) := unpackU8 data x00 in
  match err with
  | Some e => (Some e, d)
  | None => (None, div (of_byte value) c2_55)
  end.

Definition DPT_5001_Unit (d : DPT_5001) : string := "%"%string.

Definition DPT_5003 : Type := float32.

Definition DPT_5003_Pack (d : DPT_5003) : option (list byte) :=
  let value := d in
  let value := if ltb value c0 then c0 else value in
  let value := if ltb c360 value then c360 else value in
  let value := div value c360 in
  let value := mul value c255 in
  option_map packU8 (to_uint8 value).

Definition DPT_5003_Unpack (data : list byte) (d : DPT_5003)
  : option error * DPT_5003 :=
  let '(err, buf) := unpackU8 data x00 in
  match err with
  | None =>
      let value := of_byte buf in
      let value := mul value c360 in
      let value := div value c255 in
      if ltb c360 value then (Some (RangeError value 0 360), d)
      else (None, value)
  | Some _ => (None, d)
  end.

Definition DPT_5004 : Type := float32.

Definition DPT_5004_Pack (d : DPT_5004) : option (list byte) :=
  let value := d in
  let value := if ltb value c0 then c0 else value in
  let value := if ltb c255 value then c255 else value in
  option_map packU8 (to_uint8 value).

Definition DPT_5004_Unpack (data : list byte) (d : DPT_5004)
  : option error * DPT_5004 :=
  let '(err, buf) := unpackU8 data x00 in
  match err with
  | None =>
      let value := of_byte buf in
      if ltb c255 value then (Some (RangeError value 0 255), d)
      else (None, value)
  | Some _ => (None, d)
  end.

Definition DPT_5004_Unit (d : DPT_5004) : string := "%"%string.

(** ** DPT 9.xxx: the 2-byte float family *)

Definition DPT_9001 : Type := float32.

Definition DPT_9001_Unpack (data : list byte) (d : DPT_9001)
  : option error * DPT_9001 :=
  let '(err, buf) := unpackF16 data c0 in
  match err with
  | None =>
      let value := buf in
      if ltb value c_273 then (Some (RangeError value (-273) 670760), d)
      else if ltb c670760 value
           then (Some (RangeError value (-273) 670760), d)
           else (None, value)
  | Some _ => (None, d)
  end.

Definition DPT_9004 : Type := float32.

Definition DPT_9004_Unpack (data : list byte) (d : DPT_9004)
  : option error * DPT_9004 :=
  let '(err, buf) := unpackF16 data c0 in
  match err with
  | None =>
      let value := buf in
      if ltb c670760 value then (Some (RangeError value 0 670760), d)
      else (None, value)
  | Some _ => (None, d)
  end.

Definition DPT_9004_Unit (d : DPT_9004) : string := "lux"%string.

(** [Pack] of the 2-byte float types clips and then calls [packF16], whose
    file is not part of the sources at hand: the encoder is a parameter. *)
Definition DPT_9001_Pack (packF16 : float32 -> list byte) (d : DPT_9001)
  : list byte :=
  let value := d in
  let value := if ltb value c_273 then c_273 else value in
  let value := if ltb c670760 value then c670760 else value in
  packF16 value.

Definition DPT_9004_Pack (packF16 : float32 -> list byte) (d : DPT_9004)
  : list byte :=
  let value := d in
  let value := if ltb value c0 then c0 else value in
  let value := if ltb c670760 value then c670760 else value in
  packF16 value.

(** * Properties *)

(** ** Metadata of the boolean family *)

(** C9: every boolean-family type has the empty unit, and [String] renders
    true/false as On/Off (1.001), True/False (1.002), Enable/Disable (1.003),
    Close/Open (1.009) and Start/Stop (1.010). *)
Theorem bool_family_unit_and_string (d : bool) :
  DPT_1001_Unit d = EmptyString /\ DPT_1002_Unit d = EmptyString /\
  DPT_1003_Unit d = EmptyString /\ DPT_1009_Unit d = EmptyString /\
  DPT_1010_Unit d = EmptyString /\
  DPT_1001_String true = "On"%string /\ DPT_1001_String false = "Off"%string /\
  DPT_1002_String true = "True"%string /\
  DPT_1002_String false = "False"%string /\
  DPT_1003_String true = "Enable"%string /\
  DPT_1003_String false = "Disable"%string /\
  DPT_1009_String true = "Close"%string /\
  DPT_1009_String false = "Open"%string /\
  DPT_1010_String true = "Start"%string /\
  DPT_1010_String false = "Stop"%string.
Proof. repeat split. Qed.

(** ** Round trip of the boolean family *)

Lemma unpackB1_packB1 (b target : bool) :
  unpackB1 (packB1 b) target = (None, b).
Proof. destruct b; reflexivity. Qed.

(** C5: for every boolean [b] and every type of the boolean family,
    unpacking the buffer produced by [Pack] succeeds and stores [b],
    whatever the receiver held before. *)
Theorem bool_family_unpack_pack (b d : bool) :
  DPT_1001_Unpack (DPT_1001_Pack b) d = (None, b) /\
  DPT_1002_Unpack (DPT_1002_Pack b) d = (None, b) /\
  DPT_1003_Unpack (DPT_1003_Pack b) d = (None, b) /\
  DPT_1009_Unpack (DPT_1009_Pack b) d = (None, b) /\
  DPT_1010_Unpack (DPT_1010_Pack b) d = (None, b).
Proof. repeat split; apply unpackB1_packB1. Qed.

(** ** Buffers of the wrong length *)

Lemma unpackB1_length (data : list byte) (target : bool) :
  List.length data <> 1%nat -> unpackB1 data target = (Some LengthError, target).
Proof. destruct data as [|b [|c l]]; simpl; congruence. Qed.

Lemma unpackU8_length (data : list byte) (target : byte) :
  List.length data <> 1%nat -> unpackU8 data target = (Some LengthError, target).
Proof. destruct data as [|b [|c l]]; simpl; congruence. Qed.

Lemma unpackF16_length (data : list byte) (target : float32) :
  List.length data <> 2%nat -> unpackF16 data target = (Some LengthError, target).
Proof.
  destruct data as [|b [|c [|e l]]]; intros H; try reflexivity.
  exfalso. apply H. reflexivity.
Qed.

(** The boolean family and 5.001 hand the primitive's error on. *)
Lemma DPT_5001_Unpack_length (data : list byte) (d : DPT_5001) :
  List.length data <> 1%nat -> DPT_5001_Unpack data d = (Some LengthError, d).
Proof.
  intros H. unfold DPT_5001_Unpack. now rewrite (unpackU8_length _ _ H).
Qed.

(** The four other numeric types test [err == nil] and end in [return nil]:
    the primitive's error is dropped. *)
Lemma DPT_5003_Unpack_length (data : list byte) (d : DPT_5003) :
  List.length data <> 1%nat -> DPT_5003_Unpack data d = (None, d).
Proof.
  intros H. unfold DPT_5003_Unpack. now rewrite (unpackU8_length _ _ H).
Qed.

Lemma DPT_5004_Unpack_length (data : list byte) (d : DPT_5004) :
  List.length data <> 1%nat -> DPT_5004_Unpack data d = (None, d).
Proof.
  intros H. unfold DPT_5004_Unpack. now rewrite (unpackU8_length _ _ H).
Qed.

Lemma DPT_9001_Unpack_length (data : list byte) (d : DPT_9001) :
  List.length data <> 2%nat -> DPT_9001_Unpack data d = (None, d).
Proof.
  intros H. unfold DPT_9001_Unpack. now rewrite (unpackF16_length _ _ H).
Qed.

Lemma DPT_9004_Unpack_length (data : list byte) (d : DPT_9004) :
  List.length data <> 2%nat -> DPT_9004_Unpack data d = (None, d).
Proof.
  intros H. unfold DPT_9004_Unpack. now rewrite (unpackF16_length _ _ H).
Qed.

(** C1: a buffer of the wrong length is to be refused with [LengthError] by
    every type.  The boolean family and 5.001 do so; 5.003, 5.004, 9.001 and
    9.004 return [nil] on the empty buffer and on a 3-byte buffer and leave
    the receiver as it was. *)
Theorem wrong_length_not_reported (d : float32) :
  DPT_1001_Unpack [] true = (Some LengthError, true) /\
  DPT_5001_Unpack [] d = (Some LengthError, d) /\
  DPT_5003_Unpack [] d = (None, d) /\
  DPT_5004_Unpack [] d = (None, d) /\
  DPT_9001_Unpack [x0c; x1a; x00] d = (None, d) /\
  DPT_9004_Unpack [x0c; x1a; x00] d = (None, d).
Proof. repeat split. Qed.

(** ** Range checks of the 2-byte float types *)

(** 9.004 tests the decoded value against the upper bound only. *)
Lemma DPT_9004_Unpack_below_upper (data : list byte) (v : float32)
    (d : DPT_9004) :
  unpackF16 data c0 = (None, v) -> ltb c670760 v = false ->
  DPT_9004_Unpack data d = (None, v).
Proof.
  intros Hu Hv. unfold DPT_9004_Unpack. rewrite Hu. now rewrite Hv.
Qed.

(** C2: 9.004 is to refuse every decoded value outside [0, 670760].  The
    buffer 7F FF decodes above 670760 and is refused with the range error
    that names [0, 670760]; the buffer 87 FF decodes to a negative value and
    is accepted: [Unpack] returns [nil] and stores it. *)
Theorem DPT_9004_Unpack_accepts_negative (d : DPT_9004) :
  (exists v, DPT_9004_Unpack [x7f; xff] d = (Some (RangeError v 0 670760), d)
             /\ ltb c670760 v = true) /\
  (exists v, DPT_9004_Unpack [x87; xff] d = (None, v) /\ ltb v c0 = true).
Proof.
  split; eexists; split; vm_compute; reflexivity.
Qed.

(** C3: after a successful [Unpack] the receiver is to hold a value of the
    type's range.  9.004 returns [nil] on the buffer 80 64 and stores a
    negative value; 5.003 returns [nil] on the empty buffer and keeps a
    receiver that held 1000. *)
Theorem Unpack_success_out_of_range :
  (exists v, DPT_9004_Unpack [x80; x64] c0 = (None, v) /\ ltb v c0 = true) /\
  (DPT_5003_Unpack [] (of_Z 1000) = (None, of_Z 1000) /\
   ltb c360 (of_Z 1000) = true).
Proof.
  split; [eexists; split; vm_compute; reflexivity|].
  split; vm_compute; reflexivity.
Qed.

(** ** No mutation on error *)

Lemma unpackB1_error (data : list byte) (d d' : bool) (e : error) :
  unpackB1 data d = (Some e, d') -> d' = d.
Proof.
  destruct data as [|b [|c l]]; simpl; intros H; inversion H; reflexivity.
Qed.

(** C8: for every type and every buffer, an [Unpack] that returns an error
    leaves the receiver as it was before the call. *)
Theorem Unpack_error_keeps_receiver (data : list byte) :
  (forall d d' e, DPT_1001_Unpack data d = (Some e, d') -> d' = d) /\
  (forall d d' e, DPT_1002_Unpack data d = (Some e, d') -> d' = d) /\
  (forall d d' e, DPT_1003_Unpack data d = (Some e, d') -> d' = d) /\
  (forall d d' e, DPT_1009_Unpack data d = (Some e, d') -> d' = d) /\
  (forall d d' e, DPT_1010_Unpack data d = (Some e, d') -> d' = d) /\
  (forall d d' e, DPT_5001_Unpack data d = (Some e, d') -> d' = d) /\
  (forall d d' e, DPT_5003_Unpack data d = (Some e, d') -> d' = d) /\
  (forall d d' e, DPT_5004_Unpack data d = (Some e, d') -> d' = d) /\
  (forall d d' e, DPT_9001_Unpack data d = (Some e, d') -> d' = d) /\
  (forall d d' e, DPT_9004_Unpack data d = (Some e, d') -> d' = d).
Proof.
  repeat split; intros d d' e; try apply unpackB1_error.
  - unfold DPT_5001_Unpack.
    destruct (unpackU8 data x00) as [[e0|] v]; intros H; inversion H; auto.
  - unfold DPT_5003_Unpack.
    destruct (unpackU8 data x00) as [[e0|] v]; [intros H; inversion H|].
    destruct (ltb _ _); intros H; inversion H; auto.
  - unfold DPT_5004_Unpack.
    destruct (unpackU8 data x00) as [[e0|] v]; [intros H; inversion H|].
    destruct (ltb _ _); intros H; inversion H; auto.
  - unfold DPT_9001_Unpack.
    destruct (unpackF16 data c0) as [[e0|] v]; [intros H; inversion H|].
    destruct (ltb v c_273); [intros H; inversion H; auto|].
    destruct (ltb _ _); intros H; inversion H; auto.
  - unfold DPT_9004_Unpack.
    destruct (unpackF16 data c0) as [[e0|] v]; [intros H; inversion H|].
    destruct (ltb _ _); intros H; inversion H; auto.
Qed.

(** A length error of 1.001 and a range error of 9.001 (buffer 7F FF, above
    670760), each with a receiver that stays put. *)
Lemma Unpack_error_keeps_receiver_witness :
  snd (DPT_1001_Unpack [] true) = true /\
  snd (DPT_9001_Unpack [x7f; xff] c100) = c100.
Proof.
  split.
  - apply (proj1 (Unpack_error_keeps_receiver []) true _ LengthError).
    reflexivity.
  - destruct (Unpack_error_keeps_receiver [x7f; xff])
      as (_ & _ & _ & _ & _ & _ & _ & _ & H & _).
    destruct (DPT_9001_Unpack [x7f; xff] c100) as [e v] eqn:E.
    destruct e as [e|].
    + apply (H c100 v e). exact E.
    + vm_compute in E. discriminate E.
Defined.

(** ** The scaled-byte types on one-byte buffers *)

(** Scaling a byte to an angle: [byte * 360 / 255] in [float32]. *)
Lemma angle_of_byte_le_360 (b : byte) :
  ltb c360 (div (mul (of_byte b) c360) c255) = false.
Proof. destruct b; vm_compute; reflexivity. Qed.

Lemma DPT_5003_Unpack_byte (b : byte) (d : DPT_5003) :
  DPT_5003_Unpack [b] d = (None, div (mul (of_byte b) c360) c255).
Proof.
  unfold DPT_5003_Unpack. simpl unpackU8. cbv iota beta.
  now rewrite angle_of_byte_le_360.
Qed.

(** C10: the range check of 5.003 never fires.  The angle scaled from any
    byte is at most 360, and [Unpack] returns no range error on any buffer
    (it returns no error at all). *)
Theorem DPT_5003_Unpack_no_range_error (data : list byte) (d : DPT_5003) :
  (forall b : byte, leb (div (mul (of_byte b) c360) c255) c360 = true) /\
  (forall v lo hi, fst (DPT_5003_Unpack data d) <> Some (RangeError v lo hi)) /\
  fst (DPT_5003_Unpack data d) = None.
Proof.
  assert (H : fst (DPT_5003_Unpack data d) = None).
  { destruct data as [|b [|c l]].
    - reflexivity.
    - now rewrite DPT_5003_Unpack_byte.
    - reflexivity. }
  split; [|split].
  - intros b. destruct b; vm_compute; reflexivity.
  - intros v lo hi. rewrite H. discriminate.
  - exact H.
Qed.

Lemma DPT_5004_Unpack_byte (b : byte) (d : DPT_5004) :
  DPT_5004_Unpack [b] d = (None, of_byte b).
Proof. destruct b; vm_compute; reflexivity. Qed.

Lemma DPT_5004_Pack_of_byte (b : byte) :
  DPT_5004_Pack (of_byte b) = Some [b].
Proof. destruct b; vm_compute; reflexivity. Qed.

(** C7: for 5.004 and every one-byte buffer [x], if [Unpack] succeeds with
    value [v], then [Pack v] yields a buffer whose [Unpack] succeeds with [v]
    again, whatever the receivers held before. *)
Theorem DPT_5004_unpack_pack_unpack (x : byte) (d0 d1 v : DPT_5004) :
  DPT_5004_Unpack [x] d0 = (None, v) ->
  exists buf, DPT_5004_Pack v = Some buf /\ DPT_5004_Unpack buf d1 = (None, v).
Proof.
  rewrite DPT_5004_Unpack_byte. intros H. inversion H; subst v.
  exists [x]. split.
  - apply DPT_5004_Pack_of_byte.
  - apply DPT_5004_Unpack_byte.
Qed.

Lemma DPT_5004_unpack_pack_unpack_witness :
  exists buf, DPT_5004_Pack (of_Z 42) = Some buf /\
              DPT_5004_Unpack buf c0 = (None, of_Z 42).
Proof.
  apply (DPT_5004_unpack_pack_unpack x2a c100 c0 (of_Z 42)).
  vm_compute. reflexivity.
Defined.

(** ** Rounding error of [float32] operations *)

(** [rhe] is within half a unit of the quotient. *)
Lemma rhe_spec (a b : Z) :
  0 <= a -> 0 < b -> 0 <= rhe a b /\ 2 * Z.abs (rhe a b * b - a) <= b.
Proof.
  intros Ha Hb. unfold rhe.
  pose proof (Z.div_mod a b ltac:(lia)) as E.
  pose proof (Z.mod_pos_bound a b Hb) as Hr.
  pose proof (Z.div_pos a b Ha Hb) as Hq.
  set (q := a / b) in *. set (r := a mod b) in *.
  destruct (2 * r <? b) eqn:C1; [apply Z.ltb_lt in C1; split; lia|].
  apply Z.ltb_ge in C1.
  destruct (b <? 2 * r) eqn:C2; [apply Z.ltb_lt in C2; split; lia|].
  apply Z.ltb_ge in C2.
  destruct (Z.even q); split; lia.
Qed.

(** The rounding error is at most half a unit in the subnormal range and
    at most [2^-24] of the magnitude above it. *)
Lemma round_mag_spec (a den : Z) :
  0 <= a -> 0 < den ->
  0 <= round_mag a den /\
  2 ^ 24 * Z.abs (round_mag a den * den - a) <= 2 ^ 23 * den + a.
Proof.
  intros Ha Hd. unfold round_mag.
  set (fl := a / den).
  assert (Hfl : fl * den <= a).
  { unfold fl. rewrite Z.mul_comm. apply Z.mul_div_le. exact Hd. }
  set (j := if fl <? 2 ^ 24 then 0 else Z.log2 fl - 23).
  assert (Hj : 0 <= j /\ (j = 0 \/ 2 ^ j * 2 ^ 23 <= fl)).
  { unfold j. destruct (fl <? 2 ^ 24) eqn:C; [lia|].
    apply Z.ltb_ge in C.
    assert (24 <= Z.log2 fl).
    { change 24 with (Z.log2 (2 ^ 24)). now apply Z.log2_le_mono. }
    split; [lia|right].
    rewrite <- Z.pow_add_r by lia.
    replace (Z.log2 fl - 23 + 23) with (Z.log2 fl) by lia.
    apply Z.log2_spec. lia. }
  destruct Hj as [Hj0 Hj].
  assert (HP : 0 < 2 ^ j) by (apply Z.pow_pos_nonneg; lia).
  set (P := 2 ^ j) in *.
  assert (HD : 0 < den * P) by (apply Z.mul_pos_pos; lia).
  destruct (rhe_spec a (den * P) Ha HD) as [Hm Hr].
  set (m := rhe a (den * P)) in *.
  replace (m * P * den) with (m * (den * P)) by ring.
  split; [apply Z.mul_nonneg_nonneg; lia|].
  destruct Hj as [Hj|Hj].
  - assert (P = 1) by (unfold P; rewrite Hj; reflexivity).
    replace (den * P) with den in * by (subst P; lia). lia.
  - assert (2 ^ 23 * (den * P) <= a).
    { apply Z.le_trans with (fl * den); [|exact Hfl].
      replace (2 ^ 23 * (den * P)) with (P * 2 ^ 23 * den) by ring.
      apply Z.mul_le_mono_nonneg_r; lia. }
    lia.
Qed.

(** A non-negative rational below the overflow threshold rounds to a finite
    float, with the same error bound. *)
Lemma round_nonneg (n den : Z) :
  0 <= n -> 0 < den -> n <= den * 2 ^ 276 ->
  exists r, round n den = Fin r /\ 0 <= r /\
            2 ^ 24 * Z.abs (r * den - n) <= 2 ^ 23 * den + n.
Proof.
  intros Hn Hd Hb. unfold round. rewrite (Z.abs_eq n Hn).
  destruct (round_mag_spec n den Hn Hd) as [H0 H1].
  set (r := round_mag n den) in *.
  assert (Hr : r < 2 ^ 277).
  { destruct (Z.lt_ge_cases r (2 ^ 277)) as [|C]; [assumption|exfalso].
    assert (2 ^ 277 * den <= r * den) by (apply Z.mul_le_mono_nonneg_r; lia).
    lia. }
  apply Z.leb_gt in Hr. rewrite Hr.
  exists (Z.sgn n * r). split; [reflexivity|].
  destruct (Z.eq_dec n 0) as [->|Hne].
  - change (Z.sgn 0) with 0. rewrite !Z.mul_0_l. split; lia.
  - rewrite (Z.sgn_pos n) by lia. rewrite Z.mul_1_l. split; assumption.
Qed.

(** The constants of the source, in units. *)
Lemma c0_eq : c0 = Fin 0.
Proof. reflexivity. Qed.
Lemma c100_eq : c100 = Fin (100 * one).
Proof. vm_compute. reflexivity. Qed.
Lemma c255_eq : c255 = Fin (255 * one).
Proof. vm_compute. reflexivity. Qed.
Lemma c360_eq : c360 = Fin (360 * one).
Proof. vm_compute. reflexivity. Qed.
Lemma c2_55_eq : c2_55 = Fin (10695475 * 2 ^ 127).
Proof. vm_compute. reflexivity. Qed.

Lemma mul_nonneg (a b : Z) :
  0 <= a -> 0 <= b -> a * b <= one * 2 ^ 276 ->
  exists r, mul (Fin a) (Fin b) = Fin r /\ 0 <= r /\
            2 ^ 24 * Z.abs (r * one - a * b) <= 2 ^ 23 * one + a * b.
Proof.
  intros Ha Hb Hab. simpl mul.
  apply round_nonneg; [apply Z.mul_nonneg_nonneg; lia|reflexivity|exact Hab].
Qed.

Lemma div_nonneg (a b : Z) :
  0 <= a -> 0 < b -> a * one <= b * 2 ^ 276 ->
  exists r, div (Fin a) (Fin b) = Fin r /\ 0 <= r /\
            2 ^ 24 * Z.abs (r * b - a * one) <= 2 ^ 23 * b + a * one.
Proof.
  intros Ha Hb Hab. simpl div.
  destruct (b =? 0) eqn:E; [apply Z.eqb_eq in E; lia|].
  rewrite (Z.sgn_pos b Hb), Z.mul_1_l, (Z.abs_eq b) by lia.
  apply round_nonneg; [|exact Hb|exact Hab].
  apply Z.mul_nonneg_nonneg; [exact Ha|]. unfold one. lia.
Qed.

Lemma to_uint8_trunc (z : Z) :
  0 <= z -> z < 256 * one ->
  exists b, to_uint8 (Fin z) = Some b /\ Z.of_N (Byte.to_N b) = z / one.
Proof.
  intros H0 H1. unfold to_uint8.
  rewrite Z.quot_div_nonneg by (unfold one; lia).
  assert (Ht : 0 <= z / one <= 255).
  { split; [apply Z.div_pos; unfold one; lia|].
    assert (z / one < 256); [|lia].
    apply Z.div_lt_upper_bound; [unfold one; lia|lia]. }
  set (t := z / one) in *.
  destruct (Z.leb_spec 0 t); [|lia]. destruct (Z.leb_spec t 255); [|lia].
  simpl andb.
  destruct (Byte.of_N (Z.to_N t)) as [b|] eqn:E.
  - exists b. split; [reflexivity|]. apply Byte.to_of_N in E. rewrite E. lia.
  - apply Byte.of_N_None_iff in E. lia.
Qed.

(** ** 5.001: scaling on pack *)

(** C4, as the code has it: [Pack] of 5.001 yields the byte 0 when
    [d <= 0], the byte 255 when [d >= 100], and for [0 < d < 100] the
    [float32] product [d * 2.55] with its fraction discarded, which fits in
    a byte; so 0 packs to 00, 100 to FF and 50 (product 127.5) to 7F. *)
Theorem DPT_5001_Pack_cases (d : DPT_5001) :
  (leb d c0 = true -> DPT_5001_Pack d = Some [x00]) /\
  (leb c100 d = true -> DPT_5001_Pack d = Some [xff]) /\
  (ltb c0 d = true -> ltb d c100 = true ->
   exists p b, mul d c2_55 = Fin p /\ DPT_5001_Pack d = Some [b] /\
               Z.of_N (Byte.to_N b) = p / one) /\
  DPT_5001_Pack (of_Z 0) = Some [x00] /\
  DPT_5001_Pack (of_Z 100) = Some [xff] /\
  DPT_5001_Pack (of_Z 50) = Some [x7f].
Proof.
  split; [|split; [|split]].
  - intros H. unfold DPT_5001_Pack. now rewrite H.
  - unfold DPT_5001_Pack. rewrite c100_eq, c0_eq. intros H.
    assert (E : leb d (Fin 0) = false).
    { destruct d as [|[|]|k]; try discriminate H; try reflexivity.
      apply Z.leb_le in H. apply Z.leb_gt. unfold one in H. lia. }
    now rewrite E, H.
  - unfold DPT_5001_Pack. rewrite c100_eq, c0_eq, c2_55_eq. intros H0 H1.
    destruct d as [|[|]|k]; try discriminate H0; try discriminate H1.
    apply Z.ltb_lt in H0, H1.
    assert (E0 : leb (Fin k) (Fin 0) = false) by (apply Z.leb_gt; exact H0).
    assert (E1 : leb (Fin (100 * one)) (Fin k) = false)
      by (apply Z.leb_gt; exact H1).
    rewrite E0, E1.
    destruct (mul_nonneg k (10695475 * 2 ^ 127)) as (p & Ep & Hp0 & Hp);
      [lia|lia|unfold one in *; lia|].
    destruct (to_uint8_trunc p) as (b & Eb & Hb);
      [exact Hp0|unfold one in *; lia|].
    exists p, b. rewrite Ep, Eb.
    split; [reflexivity|]. split; [reflexivity|exact Hb].
  - split; [vm_compute; reflexivity|].
    split; vm_compute; reflexivity.
Qed.

Lemma DPT_5001_Pack_cases_witness :
  exists p b, mul (of_Z 50) c2_55 = Fin p /\
              DPT_5001_Pack (of_Z 50) = Some [b] /\
              Z.of_N (Byte.to_N b) = p / one.
Proof.
  apply (proj1 (proj2 (proj2 (DPT_5001_Pack_cases (of_Z 50)))));
    vm_compute; reflexivity.
Defined.

(** C4 as stated fails at 50: the byte is 7F (127), not 80 (128). *)
Lemma DPT_5001_Pack_50_truncates :
  DPT_5001_Pack (of_Z 50) = Some [x7f] /\
  DPT_5001_Pack (of_Z 50) <> Some [x80].
Proof.
  assert (E : DPT_5001_Pack (of_Z 50) = Some [x7f]) by (vm_compute; reflexivity).
  split; [exact E|]. rewrite E. discriminate.
Qed.

(** ** 5.003: pack then unpack *)

Lemma mul_of_byte_c360 (b : byte) :
  mul (of_byte b) c360 = Fin (Z.of_N (Byte.to_N b) * 360 * one).
Proof. destruct b; vm_compute; reflexivity. Qed.

Lemma leb_c0_Fin (d : float32) :
  leb c0 d = true -> d = Inf false \/ exists k, d = Fin k /\ 0 <= k.
Proof.
  destruct d as [|[|]|k]; simpl; try discriminate; auto.
  intros H. right. exists k. split; [reflexivity|]. now apply Z.leb_le in H.
Qed.

(** C6, as the code has it: for every [d] in [0, 360], [Pack] yields one
    byte, [Unpack] of that byte succeeds, and the value it stores is within
    [360/255 + 1/10000] of [d]: one scale step for the truncating
    conversion to [uint8], and a margin for the [float32] roundings. *)
Theorem DPT_5003_pack_unpack_close (d d0 : DPT_5003) :
  leb c0 d = true -> leb d c360 = true ->
  exists b v, DPT_5003_Pack d = Some [b] /\
              DPT_5003_Unpack [b] d0 = (None, v) /\
              within v d (360 * 10000 + 255) (255 * 10000).
Proof.
  intros H0 H1.
  rewrite c360_eq in H1.
  destruct (leb_c0_Fin d H0) as [->|(k & -> & Hk0)]; [discriminate H1|].
  apply Z.leb_le in H1.
  unfold DPT_5003_Pack.
  assert (L0 : ltb (Fin k) c0 = false) by (apply Z.ltb_ge; exact Hk0).
  assert (L1 : ltb c360 (Fin k) = false)
    by (rewrite c360_eq; apply Z.ltb_ge; exact H1).
  rewrite L0, L1, c360_eq, c255_eq.
  destruct (div_nonneg k (360 * one)) as (y & Ey & Hy0 & Hy);
    [exact Hk0|unfold one; lia|unfold one in *; lia|].
  rewrite Ey.
  destruct (mul_nonneg y (255 * one)) as (z & Ez & Hz0 & Hz);
    [exact Hy0|unfold one; lia|unfold one in *; lia|].
  rewrite Ez.
  destruct (to_uint8_trunc z) as (b & Eb & Hb);
    [exact Hz0|unfold one in *; lia|].
  rewrite Eb. simpl option_map.
  exists b. rewrite DPT_5003_Unpack_byte, mul_of_byte_c360, c255_eq.
  set (t := Z.of_N (Byte.to_N b)) in *.
  assert (Ht : 0 <= t <= 255).
  { pose proof (Byte.to_N_bounded b). unfold t. lia. }
  destruct (div_nonneg (t * 360 * one) (255 * one)) as (v & Ev & Hv0 & Hv);
    [unfold one; lia|unfold one; lia|unfold one in *; lia|].
  exists (Fin v). split; [reflexivity|]. split; [now rewrite Ev|].
  unfold within.
  assert (Hone : 0 < one) by (unfold one; lia).
  pose proof (Z.div_mod z one ltac:(lia)) as Ed.
  pose proof (Z.mod_pos_bound z one Hone) as Hm.
  rewrite <- Hb in Ed.
  unfold packU8. 
  unfold one in *. lia.
Qed.

Lemma DPT_5003_pack_unpack_close_witness :
  exists b v, DPT_5003_Pack (of_Z 90) = Some [b] /\
              DPT_5003_Unpack [b] c0 = (None, v) /\
              within v (of_Z 90) (360 * 10000 + 255) (255 * 10000).
Proof.
  apply (DPT_5003_pack_unpack_close (of_Z 90) c0); vm_compute; reflexivity.
Defined.

(** C6 as stated fails: the [float32] number [8465709 * 2^-15]
    (258.352935791015625) lies in [0, 360], packs to the byte B6 (182), and
    182 unpacks to [1052431 * 2^-12] (256.941162109375), further than
    [360/255] from where it started. *)
Lemma DPT_5003_pack_unpack_over_step :
  is_binary32 (Fin (8465709 * 2 ^ 134)) = true /\
  leb c0 (Fin (8465709 * 2 ^ 134)) = true /\
  leb (Fin (8465709 * 2 ^ 134)) c360 = true /\
  DPT_5003_Pack (Fin (8465709 * 2 ^ 134)) = Some [xb6] /\
  DPT_5003_Unpack [xb6] c0 = (None, Fin (1052431 * 2 ^ 137)) /\
  ~ within (Fin (1052431 * 2 ^ 137)) (Fin (8465709 * 2 ^ 134)) 360 255.
Proof.
  split; [vm_compute; reflexivity|].
  split; [vm_compute; reflexivity|].
  split; [vm_compute; reflexivity|].
  split; [vm_compute; reflexivity|].
  split; [vm_compute; reflexivity|].
  unfold within. apply Z.lt_nge. vm_compute. reflexivity.
Qed.

(** * Further properties of the codec *)

(** ** Bytes as floats *)

Lemma of_byte_eq (b : byte) : of_byte b = Fin (Z.of_N (Byte.to_N b) * one).
Proof. destruct b; vm_compute; reflexivity. Qed.

Lemma byte_value_range (b : byte) : 0 <= Z.of_N (Byte.to_N b) <= 255.
Proof. pose proof (Byte.to_N_bounded b). lia. Qed.

Lemma DPT_5001_Unpack_byte (b : byte) (d : DPT_5001) :
  DPT_5001_Unpack [b] d = (None, div (of_byte b) c2_55).
Proof. reflexivity. Qed.

(** ** 5.001: what [Unpack] stores *)

(** On a one-byte buffer 5.001 never fails, and the percentage it stores
    lies in [0, 100]; the bytes 00 and FF give exactly 0 and 100. *)
Theorem DPT_5001_Unpack_in_range (b : byte) (d : DPT_5001) :
  DPT_5001_Unpack [b] d = (None, div (of_byte b) c2_55) /\
  leb c0 (div (of_byte b) c2_55) = true /\
  leb (div (of_byte b) c2_55) c100 = true /\
  DPT_5001_Unpack [x00] d = (None, c0) /\
  DPT_5001_Unpack [xff] d = (None, c100).
Proof.
  split; [apply DPT_5001_Unpack_byte|].
  split; [destruct b; vm_compute; reflexivity|].
  split; [destruct b; vm_compute; reflexivity|].
  split; vm_compute; reflexivity.
Qed.

(** The scaled value of a byte, with its rounding error. *)
Lemma DPT_5001_scale_bound (b : byte) :
  exists v, div (of_byte b) c2_55 = Fin v /\ 0 <= v /\
    2 ^ 24 * Z.abs (v * (10695475 * 2 ^ 127)
                    - Z.of_N (Byte.to_N b) * one * one)
    <= 2 ^ 23 * (10695475 * 2 ^ 127) + Z.of_N (Byte.to_N b) * one * one.
Proof.
  rewrite of_byte_eq, c2_55_eq. pose proof (byte_value_range b) as Hb.
  apply div_nonneg; unfold one; lia.
Qed.

(** [Unpack] of 5.001 preserves the order of bytes: a larger byte decodes to
    a strictly larger percentage, so distinct bytes decode differently. *)
Theorem DPT_5001_Unpack_increasing (b1 b2 : byte) (d : DPT_5001) :
  (Byte.to_N b1 < Byte.to_N b2)%N ->
  ltb (snd (DPT_5001_Unpack [b1] d)) (snd (DPT_5001_Unpack [b2] d)) = true.
Proof.
  intros H. rewrite !DPT_5001_Unpack_byte. cbn [snd].
  destruct (DPT_5001_scale_bound b1) as (v1 & E1 & H1 & B1).
  destruct (DPT_5001_scale_bound b2) as (v2 & E2 & H2 & B2).
  rewrite E1, E2. apply Z.ltb_lt.
  pose proof (byte_value_range b1). pose proof (byte_value_range b2).
  unfold one in *. lia.
Qed.

Lemma DPT_5001_Unpack_increasing_witness :
  ltb (snd (DPT_5001_Unpack [x10] c0)) (snd (DPT_5001_Unpack [x11] c0)) = true.
Proof.
  apply (DPT_5001_Unpack_increasing x10 x11 c0). vm_compute. reflexivity.
Defined.

(** Packing what 5.001 unpacked from a byte gives that byte back or the
    byte just below it (the conversion to [uint8] truncates): never more
    than one step of drift, and the drift does occur, at byte 0F. *)
Theorem DPT_5001_pack_unpack_byte (b : byte) (d : DPT_5001) :
  (exists b', DPT_5001_Pack (snd (DPT_5001_Unpack [b] d)) = Some [b'] /\
              (Byte.to_N b' = Byte.to_N b \/
               (Byte.to_N b' + 1)%N = Byte.to_N b)) /\
  DPT_5001_Pack (snd (DPT_5001_Unpack [x0f] d)) = Some [x0e].
Proof.
  split; [|vm_compute; reflexivity].
  rewrite DPT_5001_Unpack_byte. cbn [snd].
  destruct b; eexists; (split; [vm_compute; reflexivity|]);
    ((left; reflexivity) || (right; reflexivity)).
Qed.

(** ** 5.001: pack then unpack *)

(** For every [d] in [0, 100], [Pack] yields one byte, [Unpack] of that
    byte succeeds, and the value it stores is within [100/255 + 1/10000] of
    [d]. *)
Theorem DPT_5001_pack_unpack_close (d d0 : DPT_5001) :
  leb c0 d = true -> leb d c100 = true ->
  exists b, DPT_5001_Pack d = Some [b] /\
            fst (DPT_5001_Unpack [b] d0) = None /\
            within (snd (DPT_5001_Unpack [b] d0)) d
                   (100 * 10000 + 255) (255 * 10000).
Proof.
  intros H0 H1. rewrite c100_eq in H1.
  destruct (leb_c0_Fin d H0) as [->|(k & -> & Hk0)]; [discriminate H1|].
  apply Z.leb_le in H1.
  destruct (Z.eq_dec k 0) as [->|Hk].
  { exists x00. split; [reflexivity|]. split; [reflexivity|].
    rewrite DPT_5001_Unpack_byte. cbn [snd].
    replace (div (of_byte x00) c2_55) with (Fin 0)
      by (vm_compute; reflexivity).
    unfold within, one. lia. }
  destruct (Z.eq_dec k (100 * one)) as [->|Hk'].
  { exists xff. split; [vm_compute; reflexivity|]. split; [reflexivity|].
    rewrite DPT_5001_Unpack_byte. cbn [snd].
    replace (div (of_byte xff) c2_55) with (Fin (100 * one))
      by (vm_compute; reflexivity).
    unfold within, one. lia. }
  unfold DPT_5001_Pack. rewrite c0_eq, c100_eq, c2_55_eq.
  assert (E0 : leb (Fin k) (Fin 0) = false) by (apply Z.leb_gt; lia).
  assert (E1 : leb (Fin (100 * one)) (Fin k) = false) by (apply Z.leb_gt; lia).
  rewrite E0, E1.
  destruct (mul_nonneg k (10695475 * 2 ^ 127)) as (p & Ep & Hp0 & Hp);
    [lia|lia|unfold one in *; lia|].
  destruct (to_uint8_trunc p) as (b & Eb & Hb);
    [exact Hp0|unfold one in *; lia|].
  rewrite Ep, Eb. exists b. split; [reflexivity|]. split; [reflexivity|].
  rewrite DPT_5001_Unpack_byte. cbn [snd].
  destruct (DPT_5001_scale_bound b) as (v & Ev & Hv0 & Hv).
  rewrite Ev. unfold within.
  assert (Hone : 0 < one) by (unfold one; lia).
  pose proof (Z.div_mod p one ltac:(lia)) as Ed.
  pose proof (Z.mod_pos_bound p one Hone) as Hm.
  rewrite <- Hb in Ed.
  pose proof (byte_value_range b).
  unfold one in *. lia.
Qed.

Lemma DPT_5001_pack_unpack_close_witness :
  exists b, DPT_5001_Pack (of_Z 33) = Some [b] /\
            fst (DPT_5001_Unpack [b] c0) = None /\
            within (snd (DPT_5001_Unpack [b] c0)) (of_Z 33)
                   (100 * 10000 + 255) (255 * 10000).
Proof.
  apply (DPT_5001_pack_unpack_close (of_Z 33) c0); vm_compute; reflexivity.
Defined.

(** ** 5.003: clipping, order and drift *)

Lemma not_NaN_cases (d : float32) :
  d <> NaN -> (exists s, d = Inf s) \/ (exists k, d = Fin k).
Proof. destruct d as [|s|k]; [congruence|eauto|eauto]. Qed.

Lemma DPT_5003_Pack_in_range (k : Z) :
  0 <= k <= 360 * one -> exists b, DPT_5003_Pack (Fin k) = Some [b].
Proof.
  intros [Hk0 Hk1]. unfold DPT_5003_Pack.
  assert (L0 : ltb (Fin k) c0 = false) by (apply Z.ltb_ge; exact Hk0).
  assert (L1 : ltb c360 (Fin k) = false)
    by (rewrite c360_eq; apply Z.ltb_ge; exact Hk1).
  rewrite L0, L1, c360_eq, c255_eq.
  destruct (div_nonneg k (360 * one)) as (y & Ey & Hy0 & Hy);
    [exact Hk0|unfold one; lia|unfold one in *; lia|].
  rewrite Ey.
  destruct (mul_nonneg y (255 * one)) as (z & Ez & Hz0 & Hz);
    [exact Hy0|unfold one; lia|unfold one in *; lia|].
  rewrite Ez.
  destruct (to_uint8_trunc z) as (b & Eb & Hb);
    [exact Hz0|unfold one in *; lia|].
  rewrite Eb. exists b. reflexivity.
Qed.

Lemma DPT_5003_Pack_below (d : DPT_5003) :
  ltb d c0 = true -> DPT_5003_Pack d = Some [x00].
Proof.
  intros H. unfold DPT_5003_Pack. rewrite H. vm_compute. reflexivity.
Qed.

Lemma DPT_5003_Pack_above (d : DPT_5003) :
  ltb c360 d = true -> DPT_5003_Pack d = Some [xff].
Proof.
  intros H. unfold DPT_5003_Pack.
  assert (E : ltb d c0 = false).
  { rewrite c360_eq in H. rewrite c0_eq.
    destruct d as [|[|]|k]; try discriminate H; try reflexivity.
    apply Z.ltb_lt in H. apply Z.ltb_ge. unfold one in H. lia. }
  rewrite E, H. vm_compute. reflexivity.
Qed.

(** [Pack] of 5.003 clips: every value below 0 (minus infinity included)
    packs to 00, every value above 360 (plus infinity included) to FF, and
    every value that is a number packs to exactly one byte. *)
Theorem DPT_5003_Pack_clips (d : DPT_5003) :
  (ltb d c0 = true -> DPT_5003_Pack d = Some [x00]) /\
  (ltb c360 d = true -> DPT_5003_Pack d = Some [xff]) /\
  (d <> NaN -> exists b, DPT_5003_Pack d = Some [b]).
Proof.
  split; [apply DPT_5003_Pack_below|]. split; [apply DPT_5003_Pack_above|].
  intros Hd. destruct (not_NaN_cases d Hd) as [[s ->]|[k ->]].
  - destruct s.
    + exists x00. now apply DPT_5003_Pack_below.
    + exists xff. apply DPT_5003_Pack_above. rewrite c360_eq. reflexivity.
  - destruct (Z.lt_ge_cases k 0) as [Hk|Hk].
    { exists x00. apply DPT_5003_Pack_below. rewrite c0_eq.
      now apply Z.ltb_lt. }
    destruct (Z.lt_ge_cases (360 * one) k) as [Hk'|Hk'].
    { exists xff. apply DPT_5003_Pack_above. rewrite c360_eq.
      now apply Z.ltb_lt. }
    apply DPT_5003_Pack_in_range. lia.
Qed.

Lemma DPT_5003_Pack_clips_witness :
  DPT_5003_Pack (of_Z (-5)) = Some [x00] /\
  DPT_5003_Pack (Inf false) = Some [xff] /\
  exists b, DPT_5003_Pack (of_Z 45) = Some [b].
Proof.
  split; [|split].
  - apply (proj1 (DPT_5003_Pack_clips (of_Z (-5)))). vm_compute. reflexivity.
  - apply (proj1 (proj2 (DPT_5003_Pack_clips (Inf false)))).
    vm_compute. reflexivity.
  - apply (proj2 (proj2 (DPT_5003_Pack_clips (of_Z 45)))).
    vm_compute. discriminate.
Defined.

Lemma DPT_5003_scale_bound (b : byte) :
  exists v, div (mul (of_byte b) c360) c255 = Fin v /\ 0 <= v /\
    2 ^ 24 * Z.abs (v * (255 * one)
                    - Z.of_N (Byte.to_N b) * 360 * one * one)
    <= 2 ^ 23 * (255 * one) + Z.of_N (Byte.to_N b) * 360 * one * one.
Proof.
  rewrite mul_of_byte_c360, c255_eq. pose proof (byte_value_range b) as Hb.
  apply div_nonneg; unfold one; lia.
Qed.

(** On a one-byte buffer 5.003 never fails, and the angle it stores lies in
    [0, 360]; the bytes 00 and FF give exactly 0 and 360. *)
Theorem DPT_5003_Unpack_in_range (b : byte) (d : DPT_5003) :
  fst (DPT_5003_Unpack [b] d) = None /\
  leb c0 (snd (DPT_5003_Unpack [b] d)) = true /\
  leb (snd (DPT_5003_Unpack [b] d)) c360 = true /\
  DPT_5003_Unpack [x00] d = (None, c0) /\
  DPT_5003_Unpack [xff] d = (None, c360).
Proof.
  rewrite !DPT_5003_Unpack_byte. cbn [fst snd].
  split; [reflexivity|].
  split.
  { destruct (DPT_5003_scale_bound b) as (v & Ev & Hv & _).
    rewrite Ev, c0_eq. now apply Z.leb_le. }
  split; [destruct b; vm_compute; reflexivity|].
  split; vm_compute; reflexivity.
Qed.

(** [Unpack] of 5.003 preserves the order of bytes: a larger byte decodes to
    a strictly larger angle, so distinct bytes decode differently. *)
Theorem DPT_5003_Unpack_increasing (b1 b2 : byte) (d : DPT_5003) :
  (Byte.to_N b1 < Byte.to_N b2)%N ->
  ltb (snd (DPT_5003_Unpack [b1] d)) (snd (DPT_5003_Unpack [b2] d)) = true.
Proof.
  intros H. rewrite !DPT_5003_Unpack_byte. cbn [snd].
  destruct (DPT_5003_scale_bound b1) as (v1 & E1 & H1 & B1).
  destruct (DPT_5003_scale_bound b2) as (v2 & E2 & H2 & B2).
  rewrite E1, E2. apply Z.ltb_lt.
  pose proof (byte_value_range b1). pose proof (byte_value_range b2).
  unfold one in *. lia.
Qed.

Lemma DPT_5003_Unpack_increasing_witness :
  ltb (snd (DPT_5003_Unpack [x7f] c0)) (snd (DPT_5003_Unpack [x80] c0)) = true.
Proof.
  apply (DPT_5003_Unpack_increasing x7f x80 c0). vm_compute. reflexivity.
Defined.

(** Packing what 5.003 unpacked from a byte gives that byte back or the
    byte just below it: never more than one step of drift, and the drift
    does occur, at byte 09. *)
Theorem DPT_5003_pack_unpack_byte (b : byte) (d : DPT_5003) :
  (exists b', DPT_5003_Pack (snd (DPT_5003_Unpack [b] d)) = Some [b'] /\
              (Byte.to_N b' = Byte.to_N b \/
               (Byte.to_N b' + 1)%N = Byte.to_N b)) /\
  DPT_5003_Pack (snd (DPT_5003_Unpack [x09] d)) = Some [x08].
Proof.
  split; [|vm_compute; reflexivity].
  rewrite DPT_5003_Unpack_byte. cbn [snd].
  destruct b; eexists; (split; [vm_compute; reflexivity|]);
    ((left; reflexivity) || (right; reflexivity)).
Qed.

(** ** 5.004: clipping, truncation and bytes *)

Lemma DPT_5004_Pack_in_range (k : Z) :
  0 <= k <= 255 * one ->
  exists b, DPT_5004_Pack (Fin k) = Some [b] /\
            Z.of_N (Byte.to_N b) = k / one.
Proof.
  intros [Hk0 Hk1]. unfold DPT_5004_Pack.
  assert (L0 : ltb (Fin k) c0 = false) by (apply Z.ltb_ge; exact Hk0).
  assert (L1 : ltb c255 (Fin k) = false)
    by (rewrite c255_eq; apply Z.ltb_ge; exact Hk1).
  rewrite L0, L1.
  destruct (to_uint8_trunc k) as (b & Eb & Hb);
    [exact Hk0|unfold one in *; lia|].
  rewrite Eb. exists b. split; [reflexivity|exact Hb].
Qed.

Lemma DPT_5004_Pack_below (d : DPT_5004) :
  ltb d c0 = true -> DPT_5004_Pack d = Some [x00].
Proof.
  intros H. unfold DPT_5004_Pack. rewrite H. vm_compute. reflexivity.
Qed.

Lemma DPT_5004_Pack_above (d : DPT_5004) :
  ltb c255 d = true -> DPT_5004_Pack d = Some [xff].
Proof.
  intros H. unfold DPT_5004_Pack.
  assert (E : ltb d c0 = false).
  { rewrite c255_eq in H. rewrite c0_eq.
    destruct d as [|[|]|k]; try discriminate H; try reflexivity.
    apply Z.ltb_lt in H. apply Z.ltb_ge. unfold one in H. lia. }
  rewrite E, H. vm_compute. reflexivity.
Qed.

(** [Pack] of 5.004 clips: every value below 0 packs to 00, every value
    above 255 to FF (infinities included), and every value that is a number
    packs to exactly one byte. *)
Theorem DPT_5004_Pack_clips (d : DPT_5004) :
  (ltb d c0 = true -> DPT_5004_Pack d = Some [x00]) /\
  (ltb c255 d = true -> DPT_5004_Pack d = Some [xff]) /\
  (d <> NaN -> exists b, DPT_5004_Pack d = Some [b]).
Proof.
  split; [apply DPT_5004_Pack_below|]. split; [apply DPT_5004_Pack_above|].
  intros Hd. destruct (not_NaN_cases d Hd) as [[s ->]|[k ->]].
  - destruct s.
    + exists x00. now apply DPT_5004_Pack_below.
    + exists xff. apply DPT_5004_Pack_above. rewrite c255_eq. reflexivity.
  - destruct (Z.lt_ge_cases k 0) as [Hk|Hk].
    { exists x00. apply DPT_5004_Pack_below. rewrite c0_eq.
      now apply Z.ltb_lt. }
    destruct (Z.lt_ge_cases (255 * one) k) as [Hk'|Hk'].
    { exists xff. apply DPT_5004_Pack_above. rewrite c255_eq.
      now apply Z.ltb_lt. }
    destruct (DPT_5004_Pack_in_range k) as (b & Eb & _); [lia|].
    exists b. exact Eb.
Qed.

Lemma DPT_5004_Pack_clips_witness :
  DPT_5004_Pack (of_Z (-1)) = Some [x00] /\
  DPT_5004_Pack (of_Z 300) = Some [xff] /\
  exists b, DPT_5004_Pack (of_ratio 5 2) = Some [b].
Proof.
  split; [|split].
  - apply (proj1 (DPT_5004_Pack_clips (of_Z (-1)))). vm_compute. reflexivity.
  - apply (proj1 (proj2 (DPT_5004_Pack_clips (of_Z 300)))).
    vm_compute. reflexivity.
  - apply (proj2 (proj2 (DPT_5004_Pack_clips (of_ratio 5 2)))).
    vm_compute. discriminate.
Defined.

(** For a finite [d] in [0, 255], packing and unpacking 5.004 yields the
    integer part of [d]: the fraction is lost, nothing else. *)
Theorem DPT_5004_pack_unpack_floor (k : Z) (d0 : DPT_5004) :
  0 <= k <= 255 * one ->
  exists b, DPT_5004_Pack (Fin k) = Some [b] /\
            DPT_5004_Unpack [b] d0 = (None, Fin (k / one * one)).
Proof.
  intros Hk. destruct (DPT_5004_Pack_in_range k Hk) as (b & Eb & Hb).
  exists b. split; [exact Eb|].
  now rewrite DPT_5004_Unpack_byte, of_byte_eq, Hb.
Qed.

Lemma DPT_5004_pack_unpack_floor_witness :
  exists b, DPT_5004_Pack (Fin (5 * 2 ^ 148)) = Some [b] /\
            DPT_5004_Unpack [b] c0
            = (None, Fin (5 * 2 ^ 148 / one * one)).
Proof.
  apply (DPT_5004_pack_unpack_floor (5 * 2 ^ 148) c0). unfold one. lia.
Defined.

(** On a one-byte buffer 5.004 never fails, and packing the value it stored
    gives the byte back. *)
Theorem DPT_5004_pack_unpack_byte (b : byte) (d : DPT_5004) :
  fst (DPT_5004_Unpack [b] d) = None /\
  DPT_5004_Pack (snd (DPT_5004_Unpack [b] d)) = Some [b].
Proof.
  rewrite DPT_5004_Unpack_byte. split; [reflexivity|].
  apply DPT_5004_Pack_of_byte.
Qed.

(** ** 9.001 and 9.004: what [Unpack] stores, what [Pack] encodes *)

Lemma c_273_eq : c_273 = Fin (-273 * one).
Proof. vm_compute. reflexivity. Qed.
Lemma c670760_eq : c670760 = Fin (670760 * one).
Proof. vm_compute. reflexivity. Qed.

Lemma round_not_NaN (n den : Z) : round n den <> NaN.
Proof. unfold round. destruct (_ <=? _); discriminate. Qed.

Lemma mul_Fin_not_NaN (x : float32) (p : Z) :
  x <> NaN -> p <> 0 -> mul x (Fin p) <> NaN.
Proof.
  intros Hx Hp. destruct x as [|s|a]; [congruence| |apply round_not_NaN].
  simpl. apply Z.eqb_neq in Hp. rewrite Hp. discriminate.
Qed.

(** The 2-byte float decoded from two bytes is a number. *)
Lemma unpackF16_not_NaN (hi lo : byte) (target : float32) :
  snd (unpackF16 [hi; lo] target) <> NaN.
Proof.
  cbn [unpackF16 snd].
  set (w := f16_word hi lo).
  assert (He : 0 <= f16_exponent w <= 15).
  { unfold f16_exponent. change 15 with (Z.ones 4) at 1 2.
    rewrite Z.land_ones by lia.
    pose proof (Z.mod_pos_bound (Z.shiftr w 11) (2 ^ 4) ltac:(lia)). lia. }
  set (e := f16_exponent w) in *.
  assert (Hp : 0 < 2 ^ e <= 2 ^ 15).
  { split; [apply Z.pow_pos_nonneg; lia|apply Z.pow_le_mono_r; lia]. }
  destruct (round_nonneg (2 ^ e * one) 1) as (p & Ep & Hp0 & Hpb);
    [unfold one; lia|lia|unfold one; lia|].
  unfold of_Z at 2. rewrite Ep.
  apply mul_Fin_not_NaN; [|unfold one in *; lia].
  replace (of_ratio 1 100) with (Fin 7136238304022439911101525098790628448272384)
    by (vm_compute; reflexivity).
  apply mul_Fin_not_NaN; [apply round_not_NaN|lia].
Qed.

Lemma unpackF16_two_bytes (hi lo : byte) (target : float32) :
  unpackF16 [hi; lo] target = (None, snd (unpackF16 [hi; lo] target)).
Proof. reflexivity. Qed.

Lemma ltb_false_leb (x y : float32) :
  x <> NaN -> y <> NaN -> ltb x y = false -> leb y x = true.
Proof.
  destruct x as [|[|]|a], y as [|[|]|b]; simpl; try congruence.
  intros _ _ H. apply Z.ltb_ge in H. now apply Z.leb_le.
Qed.

(** On a two-byte buffer 9.001 either refuses the decoded value with the
    range error for [-273, 670760], the value being below -273 or above
    670760 and the receiver untouched, or returns [nil] and stores a value
    of that range. *)
Theorem DPT_9001_Unpack_two_bytes (hi lo : byte) (d : DPT_9001) :
  (exists v, DPT_9001_Unpack [hi; lo] d
             = (Some (RangeError v (-273) 670760), d) /\
             (ltb v c_273 = true \/ ltb c670760 v = true)) \/
  (exists v, DPT_9001_Unpack [hi; lo] d = (None, v) /\
             leb c_273 v = true /\ leb v c670760 = true).
Proof.
  pose proof (unpackF16_not_NaN hi lo c0) as Hn.
  unfold DPT_9001_Unpack. rewrite unpackF16_two_bytes.
  set (v := snd (unpackF16 [hi; lo] c0)) in *. cbv zeta.
  destruct (ltb v c_273) eqn:L0; [left; exists v; auto|].
  destruct (ltb c670760 v) eqn:L1; [left; exists v; auto|].
  right. exists v. split; [reflexivity|]. split.
  - apply ltb_false_leb; [exact Hn|rewrite c_273_eq; discriminate|exact L0].
  - apply ltb_false_leb; [rewrite c670760_eq; discriminate|exact Hn|exact L1].
Qed.

(** On a two-byte buffer 9.004 either refuses a decoded value above 670760
    with the range error for [0, 670760], the receiver untouched, or returns
    [nil] and stores a value that is at most 670760. *)
Theorem DPT_9004_Unpack_two_bytes (hi lo : byte) (d : DPT_9004) :
  (exists v, DPT_9004_Unpack [hi; lo] d
             = (Some (RangeError v 0 670760), d) /\
             ltb c670760 v = true) \/
  (exists v, DPT_9004_Unpack [hi; lo] d = (None, v) /\
             leb v c670760 = true).
Proof.
  pose proof (unpackF16_not_NaN hi lo c0) as Hn.
  unfold DPT_9004_Unpack. rewrite unpackF16_two_bytes.
  set (v := snd (unpackF16 [hi; lo] c0)) in *. cbv zeta.
  destruct (ltb c670760 v) eqn:L1; [left; exists v; auto|].
  right. exists v. split; [reflexivity|].
  apply ltb_false_leb; [rewrite c670760_eq; discriminate|exact Hn|exact L1].
Qed.

(** Clipping as the two [Pack] methods write it: two tests in a row. *)
Lemma clip_cases (lo hi : Z) (d : float32) :
  lo <= hi ->
  forall v,
  v = (let value := if ltb d (Fin lo) then Fin lo else d in
       if ltb (Fin hi) value then Fin hi else value) ->
  (d <> NaN -> leb (Fin lo) v = true /\ leb v (Fin hi) = true) /\
  (leb (Fin lo) d = true -> leb d (Fin hi) = true -> v = d) /\
  (ltb d (Fin lo) = true -> v = Fin lo) /\
  (ltb (Fin hi) d = true -> v = Fin hi) /\
  (d = NaN -> v = NaN).
Proof.
  intros Hlh v ->. cbv zeta.
  destruct d as [|[|]|k]; cbn [ltb leb andb orb negb].
  - repeat split; congruence.
  - destruct (Z.ltb_spec hi lo); [lia|].
    repeat split; try congruence; intros; apply Z.leb_le; lia.
  - repeat split; try congruence; intros; apply Z.leb_le; lia.
  - destruct (Z.ltb_spec k lo); cbn [ltb].
    + destruct (Z.ltb_spec hi lo); [lia|].
      repeat split; try congruence; intros;
        repeat match goal with
               | H : (_ <=? _) = true |- _ => apply Z.leb_le in H
               | H : (_ <? _) = true |- _ => apply Z.ltb_lt in H
               end; try lia; try (apply Z.leb_le; lia).
    + destruct (Z.ltb_spec hi k);
      repeat split; try congruence; intros;
        repeat match goal with
               | H : (_ <=? _) = true |- _ => apply Z.leb_le in H
               | H : (_ <? _) = true |- _ => apply Z.ltb_lt in H
               end; try lia; try (apply Z.leb_le; lia).
Qed.

(** [Pack] of 9.001 hands the encoder a value of [-273, 670760] whenever
    [d] is a number: [d] itself when it lies in the range, -273 when it is
    below, 670760 when it is above.  A NaN reaches the encoder unclipped. *)
Theorem DPT_9001_Pack_clips (d : DPT_9001) :
  (d <> NaN ->
   exists v, leb c_273 v = true /\ leb v c670760 = true /\
             forall packF16, DPT_9001_Pack packF16 d = packF16 v) /\
  (leb c_273 d = true -> leb d c670760 = true ->
   forall packF16, DPT_9001_Pack packF16 d = packF16 d) /\
  (ltb d c_273 = true ->
   forall packF16, DPT_9001_Pack packF16 d = packF16 c_273) /\
  (ltb c670760 d = true ->
   forall packF16, DPT_9001_Pack packF16 d = packF16 c670760) /\
  (forall packF16, DPT_9001_Pack packF16 NaN = packF16 NaN).
Proof.
  unfold DPT_9001_Pack. rewrite c_273_eq, c670760_eq.
  destruct (clip_cases (-273 * one) (670760 * one) d ltac:(unfold one; lia)
              _ eq_refl) as (H1 & H2 & H3 & H4 & _).
  cbv zeta in *.
  split; [|split; [|split; [|split]]].
  - intros Hd. eexists. split; [apply (H1 Hd)|]. split; [apply (H1 Hd)|].
    reflexivity.
  - intros A B pf. now rewrite (H2 A B).
  - intros A pf. now rewrite (H3 A).
  - intros A pf. now rewrite (H4 A).
  - reflexivity.
Qed.

Lemma DPT_9001_Pack_clips_witness :
  (exists v, leb c_273 v = true /\ leb v c670760 = true /\
             forall packF16, DPT_9001_Pack packF16 (of_Z 21) = packF16 v) /\
  (forall packF16, DPT_9001_Pack packF16 (of_Z 21) = packF16 (of_Z 21)) /\
  (forall packF16, DPT_9001_Pack packF16 (of_Z (-300)) = packF16 c_273) /\
  (forall packF16, DPT_9001_Pack packF16 (Inf false) = packF16 c670760).
Proof.
  split; [|split; [|split]].
  - apply (proj1 (DPT_9001_Pack_clips (of_Z 21))). vm_compute. discriminate.
  - apply (proj1 (proj2 (DPT_9001_Pack_clips (of_Z 21))));
      vm_compute; reflexivity.
  - apply (proj1 (proj2 (proj2 (DPT_9001_Pack_clips (of_Z (-300)))))).
    vm_compute. reflexivity.
  - apply (proj1 (proj2 (proj2 (proj2 (DPT_9001_Pack_clips (Inf false)))))).
    vm_compute. reflexivity.
Defined.

(** [Pack] of 9.004 hands the encoder a value of [0, 670760] whenever [d]
    is a number: [d] itself when it lies in the range, 0 when it is below,
    670760 when it is above.  A NaN reaches the encoder unclipped. *)
Theorem DPT_9004_Pack_clips (d : DPT_9004) :
  (d <> NaN ->
   exists v, leb c0 v = true /\ leb v c670760 = true /\
             forall packF16, DPT_9004_Pack packF16 d = packF16 v) /\
  (leb c0 d = true -> leb d c670760 = true ->
   forall packF16, DPT_9004_Pack packF16 d = packF16 d) /\
  (ltb d c0 = true ->
   forall packF16, DPT_9004_Pack packF16 d = packF16 c0) /\
  (ltb c670760 d = true ->
   forall packF16, DPT_9004_Pack packF16 d = packF16 c670760) /\
  (forall packF16, DPT_9004_Pack packF16 NaN = packF16 NaN).
Proof.
  unfold DPT_9004_Pack. rewrite c0_eq, c670760_eq.
  destruct (clip_cases 0 (670760 * one) d ltac:(unfold one; lia)
              _ eq_refl) as (H1 & H2 & H3 & H4 & _).
  cbv zeta in *.
  split; [|split; [|split; [|split]]].
  - intros Hd. eexists. split; [apply (H1 Hd)|]. split; [apply (H1 Hd)|].
    reflexivity.
  - intros A B pf. now rewrite (H2 A B).
  - intros A pf. now rewrite (H3 A).
  - intros A pf. now rewrite (H4 A).
  - reflexivity.
Qed.

Lemma DPT_9004_Pack_clips_witness :
  (exists v, leb c0 v = true /\ leb v c670760 = true /\
             forall packF16, DPT_9004_Pack packF16 (of_Z 500) = packF16 v) /\
  (forall packF16, DPT_9004_Pack packF16 (of_Z 500) = packF16 (of_Z 500)) /\
  (forall packF16, DPT_9004_Pack packF16 (of_Z (-1)) = packF16 c0) /\
  (forall packF16, DPT_9004_Pack packF16 (of_Z 700000) = packF16 c670760).
Proof.
  split; [|split; [|split]].
  - apply (proj1 (DPT_9004_Pack_clips (of_Z 500))). vm_compute. discriminate.
  - apply (proj1 (proj2 (DPT_9004_Pack_clips (of_Z 500))));
      vm_compute; reflexivity.
  - apply (proj1 (proj2 (proj2 (DPT_9004_Pack_clips (of_Z (-1)))))).
    vm_compute. reflexivity.
  - apply (proj1 (proj2 (proj2 (proj2 (DPT_9004_Pack_clips (of_Z 700000)))))).
    vm_compute. reflexivity.
Defined.
